(** * The bookmarks contract: entity shapes and the AppRouter procedure table

    The package [src/router.ts] holds type declarations only: three entity
    interfaces ([Space], [Group], [Bookmark]) and the [AppRouter] type, a
    two-level table of procedures, each one a [query] or a [mutate] with an
    input shape and a promised output shape.

    The declarations are embedded as data: a TypeScript type becomes a term
    of [ty], a JavaScript value a term of [value], and the structural check
    the TypeScript compiler performs on an argument becomes the executable
    function [has_type] (assignability) and its refinement [accepts] (a
    fresh object literal, for which excess properties are errors too). *)

From Stdlib Require Import PrimFloat.
From stdpp Require Import base strings list gmap fin_maps.

Set Warnings "-register-all".
Local Open Scope string_scope.

(** ** TypeScript types used by the contract *)

Inductive ty : Type :=
  | TString
  | TNumber
  | TBoolean
  | TNull
  | TDate
  | TUnion (l r : ty)
  | TArray (elt : ty)
  | TObject (fields : list field)
with field : Type :=
  | Field (fname : string) (optional : bool) (ftype : ty).

Definition fname (f : field) : string := let 'Field n _ _ := f in n.
Definition optional (f : field) : bool := let 'Field _ o _ := f in o.
Definition ftype (f : field) : ty := let 'Field _ _ t := f in t.

(** [name: T] and [name?: T]. *)
Definition req (n : string) (t : ty) : field := Field n false t.
Definition opt (n : string) (t : ty) : field := Field n true t.

(** ** JavaScript values

    A [number] is an IEEE double, as is the time value held by a [Date]. An
    object is a finite map from property names to values. *)

Inductive value : Type :=
  | VUndefined
  | VNull
  | VStr (s : string)
  | VNum (x : float)
  | VBool (b : bool)
  | VDate (time : float)
  | VArr (items : list value)
  | VObj (props : gmap string value).

Definition is_undefined (v : value) : bool :=
  match v with VUndefined => true | _ => false end.

(** ** Assignability of a value to a type

    The project compiles with [strict] (so [null] and [undefined] inhabit no
    type that does not name them) and without [exactOptionalPropertyTypes]
    (so an optional property may also be present holding [undefined]).
    Object types are open: properties that the type does not declare are
    not looked at, with one exception, the compiler's check of weak types.
    A weak type is an object type that declares properties, all of them
    optional (in the contract: the input of [sync.ensureUser]); a value
    that has properties and shares none with a weak type is refused.

    Only objects are taken to inhabit an object type: every object type of
    the contract either has a required property that primitives, arrays
    and dates lack, or is weak and refuses them for sharing no property
    with it. *)

Definition weak (fields : list field) : bool :=
  match fields with
  | [] => false
  | _ :: _ => forallb optional fields
  end.

Definition has_property (props : gmap string value) (n : string) : bool :=
  match props !! n with Some _ => true | None => false end.

(** The object has properties and none of them is declared by [fields]. *)
Definition nothing_in_common
    (fields : list field) (props : gmap string value) : bool :=
  negb (bool_decide (props = ∅))
  && negb (existsb (fun f => has_property props (fname f)) fields).

Fixpoint has_type (t : ty) (v : value) {struct t} : bool :=
  match t with
  | TString => match v with VStr _ => true | _ => false end
  | TNumber => match v with VNum _ => true | _ => false end
  | TBoolean => match v with VBool _ => true | _ => false end
  | TNull => match v with VNull => true | _ => false end
  | TDate => match v with VDate _ => true | _ => false end
  | TUnion l r => has_type l v || has_type r v
  | TArray elt =>
      match v with VArr items => forallb (has_type elt) items | _ => false end
  | TObject fields =>
      match v with
      | VObj props =>
          forallb
            (fun f =>
               match f with
               | Field n o t =>
                   match props !! n with
                   | None => o
                   | Some x => (o && is_undefined x) || has_type t x
                   end
               end) fields
          && negb (weak fields && nothing_in_common fields props)
      | _ => false
      end
  end.

(** The names a shape declares, in declaration order. *)
Definition field_names (t : ty) : list string :=
  match t with TObject fields => fname <$> fields | _ => [] end.

Definition declares (t : ty) (n : string) : bool :=
  bool_decide (n ∈ field_names t).

Definition find_field (t : ty) (n : string) : option field :=
  match t with
  | TObject fields => List.find (fun f => String.eqb (fname f) n) fields
  | _ => None
  end.

Definition required_names (t : ty) : list string :=
  match t with
  | TObject fields => fname <$> List.filter (fun f => negb (optional f)) fields
  | _ => []
  end.

(** The excess property check applied to an object literal written directly
    as the argument of a call: every property of the literal has to be
    declared by the target shape. *)
Definition no_excess (t : ty) (v : value) : bool :=
  match v with
  | VObj props => bool_decide (map_Forall (fun n _ => declares t n = true) props)
  | _ => true
  end.

Definition accepts (t : ty) (v : value) : bool :=
  has_type t v && no_excess t v.

(** ** Entity types (shared between client and server) *)

Definition nullable_string : ty := TUnion TString TNull.
Definition timestamp : ty := TUnion TString TDate.

Definition Space : ty :=
  TObject
    [ req "id" TString;
      req "userId" TString;
      req "name" TString;
      opt "icon" nullable_string;
      opt "color" nullable_string;
      req "order" TNumber;
      req "isArchived" TBoolean;
      req "createdAt" timestamp;
      req "updatedAt" timestamp ].

Definition Group : ty :=
  TObject
    [ req "id" TString;
      req "userId" TString;
      req "spaceId" TString;
      req "name" TString;
      opt "icon" nullable_string;
      req "order" TNumber;
      req "isArchived" TBoolean;
      req "createdAt" timestamp;
      req "updatedAt" timestamp ].

Definition Bookmark : ty :=
  TObject
    [ req "id" TString;
      req "userId" TString;
      req "spaceId" TString;
      req "groupId" TString;
      req "title" TString;
      req "url" TString;
      opt "faviconUrl" nullable_string;
      opt "description" nullable_string;
      req "order" TNumber;
      req "isPinned" TBoolean;
      req "isArchived" TBoolean;
      req "createdAt" timestamp;
      req "updatedAt" timestamp ].

(** ** Router type definition

    A procedure is reached as [family.name] and is called either through
    [query] or through [mutate]. [input] is the parameter type of that
    function ([None] for [() => ...]) and [output] is the type [T] of its
    result [Promise<T>]. *)

Inductive mode : Type := query | mutate.

Record procedure : Type := Procedure {
  call : mode;
  input : option ty;
  output : ty
}.

Definition Query (out : ty) : procedure := Procedure query None out.
Definition Mutate (inp out : ty) : procedure := Procedure mutate (Some inp) out.

(** [{ success: boolean }] *)
Definition success_flag : ty := TObject [ req "success" TBoolean ].

Module spaces.
Definition list : procedure := Query (TArray Space).
Definition create : procedure :=
  Mutate
    (TObject
       [ req "id" TString;
         req "name" TString;
         opt "icon" nullable_string;
         opt "color" nullable_string;
         req "order" TNumber ])
    Space.
Definition update : procedure :=
  Mutate
    (TObject
       [ req "id" TString;
         opt "name" TString;
         opt "icon" nullable_string;
         opt "color" nullable_string;
         opt "isArchived" TBoolean ])
    Space.
Definition delete : procedure :=
  Mutate (TObject [ req "id" TString ]) success_flag.
Definition reorder : procedure :=
  Mutate (TObject [ req "orderedIds" (TArray TString) ]) success_flag.
End spaces.

Module groups.
Definition list : procedure := Query (TArray Group).
Definition create : procedure :=
  Mutate
    (TObject
       [ req "id" TString;
         req "spaceId" TString;
         req "name" TString;
         opt "icon" nullable_string;
         req "order" TNumber ])
    Group.
Definition update : procedure :=
  Mutate
    (TObject
       [ req "id" TString;
         opt "name" TString;
         opt "icon" nullable_string;
         opt "spaceId" TString;
         opt "isArchived" TBoolean ])
    Group.
Definition delete : procedure :=
  Mutate (TObject [ req "id" TString ]) success_flag.
Definition reorder : procedure :=
  Mutate
    (TObject [ req "spaceId" TString; req "orderedIds" (TArray TString) ])
    success_flag.
End groups.

Module bookmarks.
Definition list : procedure := Query (TArray Bookmark).
Definition create : procedure :=
  Mutate
    (TObject
       [ req "id" TString;
         req "spaceId" TString;
         req "groupId" TString;
         req "title" TString;
         req "url" TString;
         opt "description" nullable_string;
         req "order" TNumber ])
    Bookmark.
Definition update : procedure :=
  Mutate
    (TObject
       [ req "id" TString;
         opt "title" TString;
         opt "url" TString;
         opt "description" nullable_string;
         opt "faviconUrl" nullable_string;
         opt "groupId" TString;
         opt "spaceId" TString;
         opt "isPinned" TBoolean;
         opt "isArchived" TBoolean ])
    Bookmark.
Definition delete : procedure :=
  Mutate (TObject [ req "id" TString ]) success_flag.
Definition reorder : procedure :=
  Mutate
    (TObject [ req "groupId" TString; req "orderedIds" (TArray TString) ])
    success_flag.
Definition move : procedure :=
  Mutate
    (TObject
       [ req "id" TString; req "groupId" TString; req "spaceId" TString ])
    Bookmark.
End bookmarks.

Module sync.
Definition ensureUser : procedure :=
  Mutate
    (TObject
       [ opt "email" TString; opt "name" TString; opt "avatarUrl" TString ])
    (TObject [ req "id" TString ]).
Definition status : procedure :=
  Query (TObject [ req "hasServerData" TBoolean ]).
End sync.

Definition AppRouter : list (string * list (string * procedure)) :=
  [ ("spaces",
      [ ("list", spaces.list);
        ("create", spaces.create);
        ("update", spaces.update);
        ("delete", spaces.delete);
        ("reorder", spaces.reorder) ]);
    ("groups",
      [ ("list", groups.list);
        ("create", groups.create);
        ("update", groups.update);
        ("delete", groups.delete);
        ("reorder", groups.reorder) ]);
    ("bookmarks",
      [ ("list", bookmarks.list);
        ("create", bookmarks.create);
        ("update", bookmarks.update);
        ("delete", bookmarks.delete);
        ("reorder", bookmarks.reorder);
        ("move", bookmarks.move) ]);
    ("sync",
      [ ("ensureUser", sync.ensureUser);
        ("status", sync.status) ]) ].

(** Property access on the router type: [AppRouter[family][name]]. *)
Definition assoc {A : Type} (k : string) (l : list (string * A)) : option A :=
  snd <$> List.find (fun p => String.eqb (fst p) k) l.

Definition procedure_at (family name : string) : option procedure :=
  assoc family AppRouter ≫= assoc name.

(** All procedures with their paths, in declaration order. *)
Definition procedures : list (string * string * procedure) :=
  '(family, ps) ← AppRouter; '(name, p) ← ps; [(family, name, p)].

(** The shape against which the argument of a call is checked. A procedure
    declared as [() => ...] takes no argument, so nothing is accepted. *)
Definition input_has_type (p : procedure) (v : value) : bool :=
  match input p with Some t => has_type t v | None => false end.

Definition input_accepts (p : procedure) (v : value) : bool :=
  match input p with Some t => accepts t v | None => false end.

Definition input_declares (p : procedure) (n : string) : bool :=
  match input p with Some t => declares t n | None => false end.

Definition input_names (p : procedure) : list string :=
  match input p with Some t => field_names t | None => [] end.

Definition input_required (p : procedure) : list string :=
  match input p with Some t => required_names t | None => [] end.

Definition input_field (p : procedure) (n : string) : option field :=
  input p ≫= fun t => find_field t n.

(** Object literals. *)
Definition obj (l : list (string * value)) : value := VObj (list_to_map l).

(** Property access: [v.n] for an object, nothing for any other value. *)
Definition prop (v : value) (n : string) : option value :=
  match v with VObj props => props !! n | _ => None end.

(** A value lacks [n] when reading [v.n] yields [undefined]: the property is
    absent, or present and holding [undefined]. *)
Definition lacks (v : value) (n : string) : bool :=
  match prop v n with
  | None | Some VUndefined => true
  | Some _ => false
  end.

(** The check made on one declared property of an object type. *)
Definition field_ok (props : gmap string value) (f : field) : bool :=
  match props !! fname f with
  | None => optional f
  | Some x => (optional f && is_undefined x) || has_type (ftype f) x
  end.

(** An array of strings, as in [orderedIds]. *)
Definition strings (ids : list string) : value := VArr (VStr <$> ids).

(** ** Families, entities and sample values *)

(** The three families of entities and the two kinds of procedure that
    report only an outcome. *)
Definition entity_families : list string := ["spaces"; "groups"; "bookmarks"].

(** The entity interface behind each family, and the procedures that
    return entities. *)
Definition entities : list (string * ty) :=
  [("spaces", Space); ("groups", Group); ("bookmarks", Bookmark)].
Definition entity_returning : list string := ["list"; "create"; "update"].

(** The entity values inside a result: the elements of the array that
    [list] resolves to, the result itself otherwise. *)
Definition returned (p : procedure) (result : value) : list value :=
  match output p, result with
  | TArray _, VArr items => items
  | _, _ => [result]
  end.

(** A space as a server sends it (textual timestamps) and as a client may
    hold it after reviving them (native dates). *)
Definition space_textual : value :=
  obj [ ("id", VStr "s1"); ("userId", VStr "u1"); ("name", VStr "Work");
        ("icon", VNull); ("order", VNum 0); ("isArchived", VBool false);
        ("createdAt", VStr "2024-05-01T10:00:00.000Z");
        ("updatedAt", VStr "2024-05-02T08:30:00.000Z") ].

Definition space_native : value :=
  obj [ ("id", VStr "s1"); ("userId", VStr "u1"); ("name", VStr "Work");
        ("icon", VNull); ("order", VNum 0); ("isArchived", VBool false);
        ("createdAt", VDate 1714557600000);
        ("updatedAt", VDate 1714638600000) ].

(** The optional properties of the update inputs that hold a string or
    [null]. *)
Definition clearable : list (procedure * string) :=
  [ (spaces.update, "icon");
    (spaces.update, "color");
    (groups.update, "icon");
    (bookmarks.update, "description");
    (bookmarks.update, "faviconUrl") ].

(** A create input as the specification describes it, with a favicon. *)
Definition create_with_favicon : value :=
  obj [ ("id", VStr "b1");
        ("spaceId", VStr "s1");
        ("groupId", VStr "g1");
        ("title", VStr "Rocq");
        ("url", VStr "https://rocq-prover.org");
        ("faviconUrl", VStr "https://rocq-prover.org/favicon.ico");
        ("order", VNum 0) ].

(** ** Vocabulary of the further properties *)

(** The paths of the procedures that read. *)
Definition query_paths : list (string * string) :=
  [("spaces", "list"); ("groups", "list"); ("bookmarks", "list");
   ("sync", "status")].


(** The procedures of an entity family that take one entity's data. *)
Definition entity_taking : list string := ["create"; "update"; "delete"; "move"].

(** The properties declared with type [string | null]. *)
Definition nullable_names : list string :=
  ["icon"; "color"; "description"; "faviconUrl"].

(** The properties of an entity that no create input declares, as a server
    fills them in when it stores a new entity. *)
Definition managed (user : string) (pinned archived : bool)
    (created updated : value) : gmap string value :=
  {[ "userId" := VStr user;
     "isPinned" := VBool pinned;
     "isArchived" := VBool archived;
     "createdAt" := created;
     "updatedAt" := updated ]}.

(** The object spread [{...props, ...over}]: properties of [over] win. *)
Definition spread (props over : gmap string value) : value :=
  VObj (over ∪ props).

(** A bookmark as a client may hold it. *)
Definition bookmark_native : value :=
  obj [ ("id", VStr "b1"); ("userId", VStr "u1"); ("spaceId", VStr "s1");
        ("groupId", VStr "g1"); ("title", VStr "Rocq");
        ("url", VStr "https://rocq-prover.org"); ("description", VNull);
        ("order", VNum 2); ("isPinned", VBool true);
        ("isArchived", VBool false);
        ("createdAt", VDate 1714557600000);
        ("updatedAt", VStr "2024-05-02T08:30:00.000Z") ].

(** * General facts about assignability *)

Section Assignability.

Implicit Types (t : ty) (v x : value) (n : string) (f : field).
Implicit Types (fields : list field) (props : gmap string value).

Lemma has_type_object fields props :
  has_type (TObject fields) (VObj props)
  = forallb (field_ok props) fields
    && negb (weak fields && nothing_in_common fields props).
Proof.
  simpl. f_equal.
  induction fields as [|[n o t] fields IH]; simpl; [done|].
  by rewrite IH.
Qed.

(** For a type with a required property the declared properties decide. *)
Lemma has_type_strict fields props :
  weak fields = false →
  has_type (TObject fields) (VObj props) = forallb (field_ok props) fields.
Proof. intros Hweak. by rewrite has_type_object, Hweak, andb_true_r. Qed.

Lemma has_type_fields fields props :
  has_type (TObject fields) (VObj props) = true →
  forallb (field_ok props) fields = true.
Proof. rewrite has_type_object. by intros [? _]%andb_true_iff. Qed.

Lemma has_type_undefined t : has_type t VUndefined = false.
Proof.
  induction t as [| | | | |l IHl r IHr|elt _|fields]; simpl; try done.
  by rewrite IHl, IHr.
Qed.

Lemma has_type_strings ids : has_type (TArray TString) (strings ids) = true.
Proof. simpl. induction ids as [|s ids IH]; simpl; done. Qed.

Lemma accepts_has_type t v : accepts t v = true → has_type t v = true.
Proof. unfold accepts. by intros [? _]%andb_true_iff. Qed.

(** A value lacking a required property is not assignable. *)
Lemma has_type_lacks t v n :
  n ∈ required_names t → lacks v n = true → has_type t v = false.
Proof.
  intros Hn Hv.
  destruct t as [| | | | | | |fields]; simpl in Hn;
    try by apply elem_of_nil in Hn.
  destruct v as [| | | | | | |props]; try done.
  apply not_true_iff_false. intros Hall%has_type_fields.
  rewrite forallb_forall in Hall.
  apply list_elem_of_fmap in Hn as (f & -> & Hf).
  apply list_elem_of_In, filter_In in Hf as [Hf Hreq].
  apply negb_true_iff in Hreq.
  specialize (Hall f Hf). unfold field_ok, lacks in *. simpl in Hv.
  rewrite Hreq in Hall.
  destruct (props !! fname f) as [x|]; [|done].
  destruct x; try done. simpl in Hall. by rewrite has_type_undefined in Hall.
Qed.

(** An object literal with a property the shape does not declare is
    refused. *)
Lemma accepts_excess t props n x :
  props !! n = Some x → declares t n = false → accepts t (VObj props) = false.
Proof.
  intros Hx Hn. unfold accepts. apply andb_false_iff. right. simpl.
  apply bool_decide_eq_false_2. intros Hall.
  specialize (Hall n x Hx). simpl in Hall. congruence.
Qed.

(** Assignability to a type with a required property does not look at
    undeclared properties. *)
Lemma has_type_insert_undeclared fields props n x :
  weak fields = false →
  declares (TObject fields) n = false →
  has_type (TObject fields) (VObj (<[n:=x]> props))
  = has_type (TObject fields) (VObj props).
Proof.
  intros Hweak Hn. rewrite !has_type_strict by done. clear Hweak.
  apply bool_decide_eq_false_1 in Hn. simpl in Hn.
  induction fields as [|f fields IH]; [done|]. simpl.
  apply not_elem_of_cons in Hn as [Hf Hn].
  rewrite IH by done. f_equal.
  unfold field_ok. by rewrite lookup_insert_ne.
Qed.

(** For a type with a required property, setting a declared property to
    a value of its type keeps an object assignable, and so does removing
    an optional property. *)
Lemma has_type_insert fields props n x :
  weak fields = false →
  (∀ f, f ∈ fields → fname f = n → has_type (ftype f) x = true) →
  has_type (TObject fields) (VObj props) = true →
  has_type (TObject fields) (VObj (<[n:=x]> props)) = true.
Proof.
  intros Hweak Hx. rewrite !has_type_strict, !forallb_forall by done.
  intros Hall f Hf. specialize (Hall f Hf). unfold field_ok in *.
  destruct (decide (fname f = n)) as [<-|Hne].
  - rewrite lookup_insert_eq. apply orb_true_iff. right.
    apply Hx; [by apply list_elem_of_In|done].
  - by rewrite lookup_insert_ne.
Qed.

Lemma has_type_delete fields props n :
  weak fields = false →
  (∀ f, f ∈ fields → fname f = n → optional f = true) →
  has_type (TObject fields) (VObj props) = true →
  has_type (TObject fields) (VObj (delete n props)) = true.
Proof.
  intros Hweak Hopt. rewrite !has_type_strict, !forallb_forall by done.
  intros Hall f Hf. specialize (Hall f Hf). unfold field_ok in *.
  destruct (decide (fname f = n)) as [<-|Hne].
  - rewrite lookup_delete_eq. apply Hopt; [by apply list_elem_of_In|done].
  - by rewrite lookup_delete_ne.
Qed.

Lemma no_excess_insert t props n x :
  declares t n = true →
  no_excess t (VObj props) = true →
  no_excess t (VObj (<[n:=x]> props)) = true.
Proof.
  simpl. intros Hn Hall%bool_decide_eq_true_1.
  apply bool_decide_eq_true_2. by apply map_Forall_insert_2.
Qed.

Lemma no_excess_delete t props n :
  no_excess t (VObj props) = true →
  no_excess t (VObj (delete n props)) = true.
Proof.
  simpl. intros Hall%bool_decide_eq_true_1.
  apply bool_decide_eq_true_2. by apply map_Forall_delete.
Qed.

End Assignability.

(** * The procedure table *)

(** Splits a membership in an explicit list into one goal per element. *)
Ltac each_listed H :=
  repeat (apply elem_of_cons in H as [H|H]; [simplify_eq|]);
  try (by apply elem_of_nil in H).

(** Proves a membership in an explicit list. *)
Ltac listed :=
  vm_compute;
  repeat first [apply list_elem_of_here | apply list_elem_of_further].

(** Splits on whether the key [k] is the literal it is compared with. *)
Ltac case_key k :=
  match goal with
  | |- context [String.eqb ?a k] =>
      destruct (String.eqb_spec a k) as [?|_]; [subst k|]; cbn -[String.eqb]
  end.

(** Looking a path up in [AppRouter] and enumerating [procedures] agree. *)
Lemma procedure_at_listed family name p :
  procedure_at family name = Some p ↔ (family, name, p) ∈ procedures.
Proof.
  split.
  - unfold procedure_at, assoc, AppRouter. cbn -[String.eqb].
    repeat (case_key family;
            [repeat (case_key name; [intros [= <-]; listed|]); done|]).
    done.
  - intros H. vm_compute in H. each_listed H; reflexivity.
Qed.

Lemma input_lacks p v n :
  n ∈ input_required p → lacks v n = true → input_has_type p v = false.
Proof.
  unfold input_required, input_has_type. destruct (input p) as [t|].
  - apply has_type_lacks.
  - done.
Qed.

Lemma input_accepts_has_type p v :
  input_accepts p v = true → input_has_type p v = true.
Proof.
  unfold input_accepts, input_has_type. destruct (input p) as [t|].
  - apply accepts_has_type.
  - done.
Qed.

Lemma input_excess p props n x :
  props !! n = Some x →
  input_declares p n = false →
  input_accepts p (VObj props) = false.
Proof.
  unfold input_declares, input_accepts. destruct (input p) as [t|].
  - apply accepts_excess.
  - done.
Qed.

(** * The claims of the specification *)

(** Rejects [v] at [p] because of the one property, among those required,
    that the disjunction [H] says is lacking. *)
Ltac lacking H :=
  repeat (apply orb_true_iff in H as [H|H]);
  (eapply input_lacks; [|exact H]); listed.

(** C1, as stated, fails: the [bookmarks.create] input does not declare
    [faviconUrl], and a create input that supplies it is refused. *)
Lemma C1_create_with_favicon_refused :
  input_declares bookmarks.create "faviconUrl" = false
  ∧ input_accepts bookmarks.create create_with_favicon = false.
Proof. split; vm_compute; reflexivity. Qed.

(** C1, amended: the [bookmarks.create] input declares [title], [url] and
    the optional [description], the required parents [spaceId] and
    [groupId], and [id] and [order], and nothing else. An input made of
    these is accepted. [faviconUrl] is declared by [bookmarks.update], not
    by [create]: an object literal supplying it to [create] is refused,
    and assignability to the [create] input ignores whatever it holds. *)
Theorem C1_bookmarks_create_shape :
  input_names bookmarks.create
  = ["id"; "spaceId"; "groupId"; "title"; "url"; "description"; "order"]
  ∧ input_required bookmarks.create
    = ["id"; "spaceId"; "groupId"; "title"; "url"; "order"]
  ∧ input_field bookmarks.create "description"
    = Some (opt "description" nullable_string)
  ∧ (∀ id space group title url ord,
       input_accepts bookmarks.create
         (obj [ ("id", VStr id); ("spaceId", VStr space);
                ("groupId", VStr group); ("title", VStr title);
                ("url", VStr url); ("order", VNum ord) ]) = true)
  ∧ (∀ id space group title url description ord,
       input_accepts bookmarks.create
         (obj [ ("id", VStr id); ("spaceId", VStr space);
                ("groupId", VStr group); ("title", VStr title);
                ("url", VStr url); ("description", VStr description);
                ("order", VNum ord) ]) = true)
  ∧ input_declares bookmarks.create "faviconUrl" = false
  ∧ input_declares bookmarks.update "faviconUrl" = true
  ∧ (∀ props x, props !! "faviconUrl" = Some x →
                input_accepts bookmarks.create (VObj props) = false)
  ∧ (∀ props x,
       input_has_type bookmarks.create (VObj (<["faviconUrl":=x]> props))
       = input_has_type bookmarks.create (VObj props)).
Proof.
  repeat split; try (intros; vm_compute; reflexivity).
  - intros props x Hx. by eapply input_excess.
  - intros props x. by apply has_type_insert_undeclared.
Qed.

Lemma C1_bookmarks_create_shape_witness :
  input_accepts bookmarks.create
    (VObj {[ "faviconUrl" := VStr "https://rocq-prover.org/favicon.ico" ]})
  = false.
Proof.
  destruct C1_bookmarks_create_shape as (_ & _ & _ & _ & _ & _ & _ & H & _).
  eapply H. apply lookup_singleton_eq.
Defined.

(** C2: [{id:"b1", groupId:"g2", spaceId:"s2"}] is accepted by
    [bookmarks.move]; [move] and [update] are two procedures of the
    [bookmarks] family with different input shapes: no value lacking one of
    [id], [groupId], [spaceId] has the input type of [move], whereas an
    input holding only [id] is accepted by [update]; and [move] returns a
    [Bookmark]. *)
Theorem C2_move_distinct_from_update :
  input_accepts bookmarks.move
    (obj [("id", VStr "b1"); ("groupId", VStr "g2"); ("spaceId", VStr "s2")])
  = true
  ∧ (procedure_at "bookmarks" "move" = Some bookmarks.move
     ∧ procedure_at "bookmarks" "update" = Some bookmarks.update
     ∧ input bookmarks.move ≠ input bookmarks.update)
  ∧ (∀ v, lacks v "id" || lacks v "groupId" || lacks v "spaceId" = true →
          input_has_type bookmarks.move v = false)
  ∧ (∀ id, input_accepts bookmarks.update (obj [("id", VStr id)]) = true
           ∧ input_has_type bookmarks.move (obj [("id", VStr id)]) = false)
  ∧ output bookmarks.move = Bookmark.
Proof.
  split; [reflexivity|]. split; [|split; [|split]].
  - repeat split. discriminate.
  - intros v H. lacking H.
  - intros id. split; [vm_compute; reflexivity|].
    eapply input_lacks with (n := "groupId"); [listed|]. vm_compute. reflexivity.
  - reflexivity.
Qed.

Lemma C2_move_distinct_from_update_witness :
  input_has_type bookmarks.move (obj [("id", VStr "b1"); ("spaceId", VStr "s2")])
  = false.
Proof.
  destruct C2_move_distinct_from_update as (_ & _ & H & _).
  apply H. vm_compute. reflexivity.
Defined.

(** C3: for [spaces.update], [groups.update] and [bookmarks.update] an
    input holding only [id] is accepted: [id] is the one required property,
    every other declared property is optional. *)
Theorem C3_update_needs_only_id (id : string) :
  (input_accepts spaces.update (obj [("id", VStr id)]) = true
   ∧ input_accepts groups.update (obj [("id", VStr id)]) = true
   ∧ input_accepts bookmarks.update (obj [("id", VStr id)]) = true)
  ∧ (input_required spaces.update = ["id"]
     ∧ input_required groups.update = ["id"]
     ∧ input_required bookmarks.update = ["id"]).
Proof. repeat split; vm_compute; reflexivity. Qed.

(** C4: the [groups.reorder] input requires both [spaceId] and
    [orderedIds]: a value lacking either does not have the input type, in
    particular one that holds [orderedIds] only, and one that holds both is
    accepted. *)
Theorem C4_groups_reorder_needs_scope :
  input_required groups.reorder = ["spaceId"; "orderedIds"]
  ∧ (∀ v, lacks v "spaceId" || lacks v "orderedIds" = true →
          input_has_type groups.reorder v = false)
  ∧ (∀ ids, input_has_type groups.reorder (obj [("orderedIds", strings ids)])
            = false)
  ∧ (∀ space ids,
       input_accepts groups.reorder
         (obj [("spaceId", VStr space); ("orderedIds", strings ids)])
       = true).
Proof.
  split; [reflexivity|]. split; [|split].
  - intros v H. lacking H.
  - intros ids. eapply input_lacks with (n := "spaceId"); [listed|].
    vm_compute. reflexivity.
  - intros space ids. pose proof (has_type_strings ids) as H.
    revert H. generalize (strings ids). intros a H.
    vm_compute in H |- *. by rewrite H.
Qed.

Lemma C4_groups_reorder_needs_scope_witness :
  input_has_type groups.reorder (obj [("orderedIds", strings ["g1"; "g2"])])
  = false.
Proof.
  destruct C4_groups_reorder_needs_scope as (_ & H & _).
  apply H. vm_compute. reflexivity.
Defined.



(** C6: every entity value in a result of [list], [create] or [update] has
    the shape of the entity of its family, and in each entity shape
    [createdAt] and [updatedAt] admit a string as well as a [Date]. *)
Theorem C6_entity_results_have_entity_shape :
  (∀ family name E p result,
     assoc family entities = Some E → name ∈ entity_returning →
     procedure_at family name = Some p →
     has_type (output p) result = true →
     Forall (λ e, has_type E e = true) (returned p result))
  ∧ (∀ family E,
       assoc family entities = Some E →
       find_field E "createdAt" = Some (req "createdAt" timestamp)
       ∧ find_field E "updatedAt" = Some (req "updatedAt" timestamp)
       ∧ ∀ props created updated,
           has_type E (VObj props) = true →
           has_type timestamp created = true →
           has_type timestamp updated = true →
           has_type E
             (VObj (<["createdAt":=created]> (<["updatedAt":=updated]> props)))
           = true)
  ∧ (∀ text, has_type timestamp (VStr text) = true)
  ∧ (∀ time, has_type timestamp (VDate time) = true)
  ∧ has_type Space space_textual = true
  ∧ has_type Space space_native = true.
Proof.
  split; [|split; [|by repeat split]].
  - intros family name E p result HE Hname Hp%procedure_at_listed Hres.
    vm_compute in Hp.
    each_listed Hp; try (by each_listed Hname); injection HE as <-;
      first [ destruct result; try discriminate Hres;
              apply Forall_forall; intros e He%list_elem_of_In;
              apply (proj1 (forallb_forall _ _) Hres e He)
            | by apply Forall_singleton ].
  - intros family E HE.
    assert (E ∈ [Space; Group; Bookmark]) as HEs.
    { revert HE. unfold assoc, entities. cbn -[String.eqb].
      repeat (case_key family; [intros [= <-]; listed|]). done. }
    each_listed HEs; (split; [reflexivity|split; [reflexivity|]]);
      intros props created updated Hprops Hcreated Hupdated;
      repeat (apply has_type_insert;
              [reflexivity|intros f Hf Hname; each_listed Hf; done|]);
      done.
Qed.

Lemma C6_entity_results_have_entity_shape_witness :
  Forall (λ e, has_type Space e = true)
    (returned spaces.list (VArr [space_textual; space_native])).
Proof.
  destruct C6_entity_results_have_entity_shape as (H & _).
  apply (H "spaces" "list"); [reflexivity|listed|reflexivity|].
  vm_compute. reflexivity.
Defined.

(** C7: the [spaces.create] input requires exactly [id], [name] and [order],
    with [icon] and [color] optional: [{id:"s1", name:"Work", order:0}] is
    accepted without [icon] or [color], and no value lacking one of [id],
    [name], [order] has the input type. *)
Theorem C7_spaces_create_required_fields :
  input_names spaces.create = ["id"; "name"; "icon"; "color"; "order"]
  ∧ input_required spaces.create = ["id"; "name"; "order"]
  ∧ input_field spaces.create "icon" = Some (opt "icon" nullable_string)
  ∧ input_field spaces.create "color" = Some (opt "color" nullable_string)
  ∧ input_accepts spaces.create
      (obj [("id", VStr "s1"); ("name", VStr "Work"); ("order", VNum 0)])
    = true
  ∧ ∀ v, lacks v "id" || lacks v "name" || lacks v "order" = true →
         input_has_type spaces.create v = false.
Proof.
  repeat split; try reflexivity.
  intros v H. lacking H.
Qed.

Lemma C7_spaces_create_required_fields_witness :
  input_has_type spaces.create (obj [("id", VStr "s1"); ("order", VNum 0)])
  = false.
Proof.
  destruct C7_spaces_create_required_fields as (_ & _ & _ & _ & _ & H).
  apply H. vm_compute. reflexivity.
Defined.

(** C8: in the update inputs, [icon] and [color] of spaces, [icon] of
    groups and [description] and [faviconUrl] of bookmarks are declared as
    optional string-or-null: starting from any accepted input, the input
    stays accepted when the property is set to a string, set to [null], or
    removed, and these are three different inputs. *)
Theorem C8_clearable_fields_three_states :
  ∀ p n, (p, n) ∈ clearable →
    input_field p n = Some (opt n nullable_string)
    ∧ ∀ props, input_accepts p (VObj props) = true →
        (∀ s, input_accepts p (VObj (<[n:=VStr s]> props)) = true)
        ∧ input_accepts p (VObj (<[n:=VNull]> props)) = true
        ∧ input_accepts p (VObj (delete n props)) = true
        ∧ (∀ s, prop (VObj (<[n:=VStr s]> props)) n = Some (VStr s))
        ∧ prop (VObj (<[n:=VNull]> props)) n = Some VNull
        ∧ prop (VObj (delete n props)) n = None.
Proof.
  intros p n Hpn. each_listed Hpn; (split; [reflexivity|]);
    intros props [Htype Hexcess]%andb_true_iff;
    (split; [intros s|split; [|split]]);
    try (apply andb_true_iff; split;
         [ first [ apply has_type_insert | apply has_type_delete ];
           [reflexivity|intros f Hf Hname; each_listed Hf; done|done]
         | first [ by apply no_excess_insert | by apply no_excess_delete ] ]).
  all: repeat split; intros; simpl.
  all: by rewrite ?lookup_insert_eq, ?lookup_delete_eq.
Qed.

Lemma C8_clearable_fields_three_states_witness :
  input_accepts bookmarks.update
    (VObj (<["faviconUrl":=VNull]> {[ "id" := VStr "b1" ]})) = true
  ∧ input_accepts bookmarks.update
      (VObj (delete "faviconUrl" {[ "id" := VStr "b1" ]})) = true.
Proof.
  destruct (C8_clearable_fields_three_states bookmarks.update "faviconUrl")
    as (_ & H); [listed|].
  destruct (H {[ "id" := VStr "b1" ]}) as (_ & Hnull & Habsent & _).
  { vm_compute. reflexivity. }
  exact (conj Hnull Habsent).
Defined.




(** C10: no input of any procedure declares [userId], so no call can
    supply it, while [Space], [Group] and [Bookmark] each carry a required
    [userId]. *)
Theorem C10_no_input_declares_userId :
  (∀ family name p,
     procedure_at family name = Some p →
     input_declares p "userId" = false
     ∧ ∀ props x, props !! "userId" = Some x →
                  input_accepts p (VObj props) = false)
  ∧ (∀ family E,
       assoc family entities = Some E →
       find_field E "userId" = Some (req "userId" TString)).
Proof.
  split.
  - intros family name p Hp%procedure_at_listed.
    assert (input_declares p "userId" = false) as Hno.
    { vm_compute in Hp. each_listed Hp; reflexivity. }
    split; [done|]. intros props x Hx. by eapply input_excess.
  - intros family E. unfold assoc, entities. cbn -[String.eqb].
    repeat (case_key family; [by intros [= <-]|]). done.
Qed.

Lemma C10_no_input_declares_userId_witness :
  (input_declares bookmarks.move "userId" = false
   ∧ input_accepts bookmarks.move
       (VObj {[ "id" := VStr "b1"; "groupId" := VStr "g2";
                "spaceId" := VStr "s2"; "userId" := VStr "u2" ]}) = false)
  ∧ find_field Bookmark "userId" = Some (req "userId" TString).
Proof.
  destruct C10_no_input_declares_userId as (Hinput & Hentity). split.
  - destruct (Hinput "bookmarks" "move" bookmarks.move) as (Hno & Hrefused);
      [reflexivity|].
    split; [exact Hno|].
    apply (Hrefused _ (VStr "u2")). vm_compute. reflexivity.
  - apply (Hentity "bookmarks"). reflexivity.
Defined.

(** * Relations between shapes *)

Section Shapes.

Implicit Types (t : ty) (v x : value) (n : string) (f g : field).
Implicit Types (fields : list field) (props extra : gmap string value).

(** Only objects inhabit an object type. *)
Lemma has_type_object_inv fields v :
  has_type (TObject fields) v = true → ∃ props, v = VObj props.
Proof. destruct v; try done. by eexists. Qed.

Lemma has_type_string_inv x : has_type TString x = true → ∃ s, x = VStr s.
Proof. destruct x; try done. by eexists. Qed.

Lemma has_type_strings_inv x :
  has_type (TArray TString) x = true → ∃ ids, x = strings ids.
Proof.
  destruct x as [| | | | | |items|]; try done. simpl. intros Hall.
  assert (∃ ids, items = VStr <$> ids) as [ids ->]; [|by exists ids].
  induction items as [|x items IH]; [by exists []|].
  simpl in Hall. apply andb_true_iff in Hall as [Hx Hall].
  destruct (IH Hall) as [ids ->]. destruct x; try done.
  by eexists (_ :: ids).
Qed.

(** What assignability to an object type says about one declared
    property. *)
Lemma has_type_field fields props f :
  f ∈ fields →
  has_type (TObject fields) (VObj props) = true →
  field_ok props f = true.
Proof.
  intros Hf Hall%has_type_fields. rewrite forallb_forall in Hall.
  by apply Hall, list_elem_of_In.
Qed.

(** [find_field] finds a declaration under the name asked for, and finds
    one whenever the name is declared. *)
Lemma find_field_Some fields n f :
  find_field (TObject fields) n = Some f → f ∈ fields ∧ fname f = n.
Proof.
  simpl. intros [Hf Hn]%find_some. split; [by apply list_elem_of_In|].
  by apply String.eqb_eq.
Qed.

Lemma find_field_None fields n :
  find_field (TObject fields) n = None → n ∉ field_names (TObject fields).
Proof.
  simpl. intros Hnone (f & -> & Hf)%list_elem_of_fmap.
  apply list_elem_of_In in Hf.
  pose proof (find_none _ _ Hnone f Hf) as Hne. simpl in Hne.
  by rewrite String.eqb_refl in Hne.
Qed.

(** A shape with a required property, whose every property is declared at
    least as permissively by another shape, admits all objects that the
    other shape admits. *)
Lemma has_type_subshape fieldsS fieldsE props :
  weak fieldsS = false →
  (∀ f, f ∈ fieldsS →
     match find_field (TObject fieldsE) (fname f) with
     | Some g => ftype g = ftype f ∧ (optional g = true → optional f = true)
     | None => False
     end) →
  has_type (TObject fieldsE) (VObj props) = true →
  has_type (TObject fieldsS) (VObj props) = true.
Proof.
  intros Hweak Hsub HE. rewrite has_type_strict, forallb_forall by done.
  intros f Hf%list_elem_of_In. specialize (Hsub f Hf).
  destruct (find_field (TObject fieldsE) (fname f)) as [g|] eqn:Hfind;
    [|done].
  apply find_field_Some in Hfind as [Hg Hname].
  destruct Hsub as [Htype Hopt].
  apply (has_type_field _ _ g) in HE; [|done].
  unfold field_ok in *. rewrite <-Hname, <-Htype.
  destruct (props !! fname g) as [x|]; [|by apply Hopt].
  apply orb_true_iff in HE as [[Ho Hu]%andb_true_iff|Hx].
  - by rewrite Hopt, Hu.
  - by rewrite Hx, orb_true_r.
Qed.

Lemma no_excess_subshape S E props :
  (∀ n, n ∈ field_names S → n ∈ field_names E) →
  no_excess S (VObj props) = true →
  no_excess E (VObj props) = true.
Proof.
  simpl. intros Hsub Hall%bool_decide_eq_true_1.
  apply bool_decide_eq_true_2. intros n x Hx. specialize (Hall n x Hx).
  simpl in *. unfold declares in *.
  apply bool_decide_eq_true_1 in Hall. apply bool_decide_eq_true_2. auto.
Qed.

(** An accepted object holds declared properties only. *)
Lemma accepts_declared t props n x :
  accepts t (VObj props) = true → props !! n = Some x → n ∈ field_names t.
Proof.
  unfold accepts. intros [_ Hall%bool_decide_eq_true_1]%andb_true_iff Hx.
  specialize (Hall n x Hx). simpl in Hall.
  by apply bool_decide_eq_true_1 in Hall.
Qed.

(** The object [{...props, ...extra}]: an accepted object of one shape,
    completed with properties of another shape, is assignable to the
    latter when that shape has a required property and asks for nothing
    else. *)
Lemma has_type_completed fieldsS fieldsE extra props :
  weak fieldsE = false →
  (∀ g, g ∈ fieldsE →
     match extra !! fname g, find_field (TObject fieldsS) (fname g) with
     | Some x, _ => has_type (ftype g) x = true
     | None, Some f =>
         ftype f = ftype g ∧ (optional f = true → optional g = true)
     | None, None => optional g = true
     end) →
  accepts (TObject fieldsS) (VObj props) = true →
  has_type (TObject fieldsE) (spread props extra) = true.
Proof.
  intros Hweak Hall Hacc. unfold spread.
  rewrite has_type_strict, forallb_forall by done.
  intros g Hg%list_elem_of_In. specialize (Hall g Hg). unfold field_ok.
  destruct (extra !! fname g) as [x|] eqn:Hextra.
  - rewrite lookup_union_l' by (by rewrite Hextra).
    by rewrite Hextra, Hall, orb_true_r.
  - rewrite lookup_union_r by done.
    destruct (find_field (TObject fieldsS) (fname g)) as [f|] eqn:Hfind.
    + apply find_field_Some in Hfind as [Hf Hname].
      destruct Hall as [Htype Hopt].
      apply accepts_has_type in Hacc.
      apply (has_type_field _ _ f) in Hacc; [|done].
      unfold field_ok in Hacc. rewrite Hname, Htype in Hacc.
      destruct (props !! fname g) as [x|]; [|by apply Hopt].
      apply orb_true_iff in Hacc as [[Ho Hu]%andb_true_iff|Hx].
      * by rewrite Hopt, Hu.
      * by rewrite Hx, orb_true_r.
    + apply find_field_None in Hfind.
      destruct (props !! fname g) as [x|] eqn:Hx; [|done].
      destruct Hfind. by eapply accepts_declared.
Qed.

(** A declared property holding a value that is neither [undefined] nor of
    the declared type makes the object unassignable. *)
Lemma has_type_bad_property fields props n f x :
  find_field (TObject fields) n = Some f →
  props !! n = Some x →
  is_undefined x = false →
  has_type (ftype f) x = false →
  has_type (TObject fields) (VObj props) = false.
Proof.
  intros [Hf <-]%find_field_Some Hx Hundef Hbad.
  apply not_true_iff_false. intros Hok.
  apply (has_type_field _ _ f) in Hok; [|done].
  unfold field_ok in Hok. rewrite Hx, Hundef, Hbad in Hok.
  by rewrite andb_false_r in Hok.
Qed.

(** What assignability says about a property that is present. *)
Lemma has_type_property fields props n f x :
  find_field (TObject fields) n = Some f →
  has_type (TObject fields) (VObj props) = true →
  props !! n = Some x →
  (optional f = true ∧ x = VUndefined) ∨ has_type (ftype f) x = true.
Proof.
  intros [Hf <-]%find_field_Some Hok Hx.
  apply (has_type_field _ _ f) in Hok; [|done].
  unfold field_ok in Hok. rewrite Hx in Hok.
  apply orb_true_iff in Hok as [[Ho Hu]%andb_true_iff|Hok]; [left|by right].
  by destruct x.
Qed.

(** For a type with a required property, a property holding [undefined]
    counts as an omitted one. *)
Lemma has_type_undefined_property fields props n :
  weak fields = false →
  has_type (TObject fields) (VObj (<[n:=VUndefined]> props))
  = has_type (TObject fields) (VObj (delete n props)).
Proof.
  intros Hweak. rewrite !has_type_strict by done. clear Hweak.
  induction fields as [|f fields IH]; [done|]. simpl. rewrite IH. f_equal.
  unfold field_ok. destruct (decide (fname f = n)) as [<-|Hne].
  - rewrite lookup_insert_eq, lookup_delete_eq. simpl.
    rewrite has_type_undefined. by destruct (optional f).
  - by rewrite lookup_insert_ne, lookup_delete_ne.
Qed.

End Shapes.

(** * Further properties of the contract *)

(** Enumerates the procedures that [H] says are at a path. *)
Ltac each_procedure H :=
  apply procedure_at_listed in H; vm_compute in H; each_listed H.

(** Enumerates the entity types that [H] says belong to [family]. *)
Ltac each_entity H family :=
  revert H; unfold assoc, entities; cbn -[String.eqb];
  repeat (case_key family; [intros [= <-]|]); [..|done].

(** X1: the procedures called through [query] are exactly [spaces.list],
    [groups.list], [bookmarks.list] and [sync.status]: each of the four is
    in the contract, is a query and takes no argument, and every other
    procedure is called through [mutate] with an object as its input. *)
Theorem X1_queries_take_no_input :
  (∀ family name,
     (family, name) ∈ query_paths →
     ∃ p, procedure_at family name = Some p
          ∧ call p = query ∧ input p = None
          ∧ ∀ v, input_has_type p v = false)
  ∧ (∀ family name p,
       procedure_at family name = Some p →
       (family, name) ∉ query_paths →
       call p = mutate ∧ ∃ fields, input p = Some (TObject fields)).
Proof.
  split.
  - intros family name Hq. each_listed Hq; by eexists.
  - intros family name p Hp Hq.
    each_procedure Hp; try (by destruct Hq; listed); by eauto.
Qed.

Lemma X1_queries_take_no_input_witness :
  (∃ p, procedure_at "sync" "status" = Some p
        ∧ call p = query ∧ input p = None
        ∧ ∀ v, input_has_type p v = false)
  ∧ (call sync.ensureUser = mutate
     ∧ ∃ fields, input sync.ensureUser = Some (TObject fields)).
Proof.
  destruct X1_queries_take_no_input as (Hquery & Hmutate). split.
  - apply Hquery. listed.
  - apply (Hmutate "sync" "ensureUser"); [reflexivity|].
    intros Hq. vm_compute in Hq. each_listed Hq.
Defined.

(** X2: a value of an entity type is assignable to the input of [create],
    [update], [delete] and (for bookmarks) [move] of its family: each of
    these inputs declares properties of the entity only, with the entity's
    types. *)
Theorem X2_entity_assignable_to_inputs family E name p v :
  assoc family entities = Some E →
  procedure_at family name = Some p →
  name ∈ entity_taking →
  has_type E v = true →
  input_has_type p v = true.
Proof.
  intros HE Hp Hname.
  each_procedure Hp; try (by each_listed Hname); clear Hname;
    injection HE as <-; intros Hv;
    destruct v as [| | | | | | |props]; try done;
    (eapply has_type_subshape; [reflexivity| |exact Hv]);
    intros f Hf; each_listed Hf; vm_compute; by split.
Qed.

Lemma X2_entity_assignable_to_inputs_witness :
  input_has_type bookmarks.update bookmark_native = true.
Proof.
  apply (X2_entity_assignable_to_inputs "bookmarks" Bookmark "update");
    [reflexivity|reflexivity|listed|vm_compute; reflexivity].
Defined.

(** X3: an accepted [create] input, spread together with the properties
    that a create input never carries ([userId], [isPinned], [isArchived]
    and the two timestamps), is a value of the entity type of the family. *)
Theorem X3_create_input_completes_to_entity
    family E p props user pinned archived created updated :
  assoc family entities = Some E →
  procedure_at family "create" = Some p →
  input_accepts p (VObj props) = true →
  has_type timestamp created = true →
  has_type timestamp updated = true →
  has_type E (spread props (managed user pinned archived created updated))
  = true.
Proof.
  intros HE Hp Hacc Hcreated Hupdated.
  each_entity HE family; injection Hp as <-;
    (eapply has_type_completed; [reflexivity| |exact Hacc]);
    intros g Hg; each_listed Hg;
    vm_compute in Hcreated, Hupdated |- *; done.
Qed.

Lemma X3_create_input_completes_to_entity_witness :
  has_type Bookmark
    (spread
       (list_to_map
          [ ("id", VStr "b1"); ("spaceId", VStr "s1"); ("groupId", VStr "g1");
            ("title", VStr "Rocq"); ("url", VStr "https://rocq-prover.org");
            ("order", VNum 0) ])
       (managed "u1" false false (VDate 1714557600000)
          (VDate 1714557600000)))
  = true.
Proof.
  apply (X3_create_input_completes_to_entity "bookmarks" Bookmark
           bookmarks.create); reflexivity.
Defined.

(** X4: the input of [sync.ensureUser] declares optional properties only.
    An object literal is accepted exactly when each property it holds is
    one of [email], [name], [avatarUrl] and holds a string or [undefined];
    so the empty object is accepted and [null] never is. *)
Theorem X4_ensureUser_input (props : gmap string value) :
  input_accepts sync.ensureUser (VObj props) = true
  ↔ ∀ n x, props !! n = Some x →
           n ∈ ["email"; "name"; "avatarUrl"]
           ∧ (x = VUndefined ∨ ∃ s, x = VStr s).
Proof.
  unfold input_accepts. simpl input. split.
  - intros Hacc n x Hx.
    pose proof (accepts_declared _ _ _ _ Hacc Hx) as Hn.
    split; [done|]. apply accepts_has_type in Hacc.
    pose proof (λ f Hf, has_type_property _ _ _ f _ Hf Hacc Hx) as Hprop.
    simpl in Hn.
    each_listed Hn;
      (edestruct Hprop as [[_ ->]|Hstr]; [reflexivity|by left|]);
      apply has_type_string_inv in Hstr; by right.
  - intros Hall. apply andb_true_iff. split.
    + rewrite has_type_object. apply andb_true_iff. split.
      * apply forallb_forall.
        intros f Hf%list_elem_of_In. unfold field_ok.
        destruct (props !! fname f) as [x|] eqn:Hx.
        -- destruct (Hall _ _ Hx) as [_ [->|[s ->]]];
             each_listed Hf; reflexivity.
        -- each_listed Hf; reflexivity.
      * apply negb_true_iff, andb_false_iff. right.
        unfold nothing_in_common.
        destruct (decide (props = ∅)) as [->|Hne];
          [by rewrite bool_decide_eq_true_2|].
        apply map_choose in Hne as (n & x & Hx).
        destruct (Hall _ _ Hx) as [Hn _].
        apply andb_false_iff. right. apply negb_false_iff, existsb_exists.
        exists (opt n TString). split.
        -- each_listed Hn; simpl; auto.
        -- unfold has_property. simpl. by rewrite Hx.
    + apply bool_decide_eq_true_2. intros n x Hx.
      destruct (Hall _ _ Hx) as [Hn _]. by apply bool_decide_eq_true_2.
Qed.

Lemma X4_ensureUser_input_witness :
  input_accepts sync.ensureUser (VObj {[ "email" := VStr "ada@example.org" ]})
  = true.
Proof.
  apply (proj2 (X4_ensureUser_input _)).
  intros n x [<- <-]%lookup_singleton_Some. split; [listed|]. right. by eexists.
Defined.

(** X5: [null] can be sent only for [icon], [color], [description] and
    [faviconUrl]: an object holding [null] under any other property that
    the input of a procedure declares is not assignable to that input. *)
Theorem X5_null_only_for_nullable family name p n props :
  procedure_at family name = Some p →
  input_declares p n = true →
  n ∉ nullable_names →
  props !! n = Some VNull →
  input_has_type p (VObj props) = false.
Proof.
  intros Hp Hn Hnot Hnull.
  each_procedure Hp; try done;
    apply bool_decide_eq_true_1 in Hn; simpl in Hn; each_listed Hn;
    try (by destruct Hnot; listed);
    (eapply has_type_bad_property; [|exact Hnull|..]); reflexivity.
Qed.

Lemma X5_null_only_for_nullable_witness :
  input_has_type spaces.update
    (VObj {[ "id" := VStr "s1"; "name" := VNull ]}) = false.
Proof.
  apply (X5_null_only_for_nullable "spaces" "update" spaces.update "name");
    [reflexivity|reflexivity| |reflexivity].
  intros Hin. vm_compute in Hin. each_listed Hin.
Defined.

(** X6: an object is assignable to a [reorder] input exactly when its
    [orderedIds] is an array of strings (the empty array included) and its
    scope is a string: no scope for spaces, [spaceId] for groups,
    [groupId] for bookmarks. *)
Theorem X6_reorder_inputs (props : gmap string value) :
  (input_has_type spaces.reorder (VObj props) = true
   ↔ ∃ ids, props !! "orderedIds" = Some (strings ids))
  ∧ (input_has_type groups.reorder (VObj props) = true
     ↔ ∃ space ids, props !! "spaceId" = Some (VStr space)
                    ∧ props !! "orderedIds" = Some (strings ids))
  ∧ (input_has_type bookmarks.reorder (VObj props) = true
     ↔ ∃ group ids, props !! "groupId" = Some (VStr group)
                    ∧ props !! "orderedIds" = Some (strings ids)).
Proof.
  unfold input_has_type, spaces.reorder, groups.reorder, bookmarks.reorder.
  unfold Mutate, input. cbv beta iota.
  rewrite !has_type_strict by reflexivity.
  unfold field_ok. cbn [forallb fname optional ftype req].
  repeat split.
  - intros [Hids _]%andb_true_iff.
    destruct (props !! "orderedIds") as [x|]; [|done].
    apply has_type_strings_inv in Hids as [ids ->]. by exists ids.
  - intros [ids ->]. by rewrite has_type_strings.
  - intros [Hscope [Hids _]%andb_true_iff]%andb_true_iff.
    destruct (props !! "spaceId") as [s|]; [|done].
    destruct (props !! "orderedIds") as [x|]; [|done].
    apply has_type_string_inv in Hscope as [space ->].
    apply has_type_strings_inv in Hids as [ids ->]. by exists space, ids.
  - intros (space & ids & -> & ->). by rewrite has_type_strings.
  - intros [Hscope [Hids _]%andb_true_iff]%andb_true_iff.
    destruct (props !! "groupId") as [s|]; [|done].
    destruct (props !! "orderedIds") as [x|]; [|done].
    apply has_type_string_inv in Hscope as [group ->].
    apply has_type_strings_inv in Hids as [ids ->]. by exists group, ids.
  - intros (group & ids & -> & ->). by rewrite has_type_strings.
Qed.

Lemma X6_reorder_inputs_witness :
  input_has_type spaces.reorder (VObj {[ "orderedIds" := strings [] ]}) = true.
Proof.
  apply (proj2 (proj1 (X6_reorder_inputs _))).
  exists []. apply lookup_singleton_eq.
Defined.

(** X7: for each of the three families the accepted [delete] inputs are
    exactly the objects [{id: s}] with [s] a string. *)
Theorem X7_delete_input_is_an_id family p v :
  family ∈ entity_families →
  procedure_at family "delete" = Some p →
  input_accepts p v = true ↔ ∃ id, v = obj [("id", VStr id)].
Proof.
  intros Hf Hp.
  assert (input p = Some (TObject [req "id" TString])) as Hin.
  { each_listed Hf; by injection Hp as <-. }
  unfold input_accepts. rewrite Hin. clear Hf Hp Hin. split.
  - intros Hacc. pose proof (accepts_has_type _ _ Hacc) as Htype.
    apply has_type_object_inv in Htype as Hv. destruct Hv as [props ->].
    apply (has_type_field _ _ (req "id" TString)) in Htype; [|listed].
    unfold field_ok in Htype. simpl in Htype.
    destruct (props !! "id") as [x|] eqn:Hid; [|done].
    apply has_type_string_inv in Htype as [id ->].
    exists id. unfold obj. f_equal. apply map_eq. intros n. simpl.
    destruct (decide (n = "id")) as [->|Hne].
    + by rewrite lookup_insert_eq.
    + rewrite lookup_insert_ne, lookup_empty by done.
      destruct (props !! n) as [x|] eqn:Hx; [|done].
      pose proof (accepts_declared _ _ _ _ Hacc Hx) as Hn.
      simpl in Hn. by each_listed Hn.
  - intros [id ->]. vm_compute. reflexivity.
Qed.

Lemma X7_delete_input_is_an_id_witness :
  input_accepts groups.delete (obj [("id", VStr "g1")]) = true.
Proof.
  apply (proj2 (X7_delete_input_is_an_id "groups" groups.delete _
                  ltac:(listed) eq_refl)).
  by exists "g1".
Defined.

(** X8: in every value of an entity type, [createdAt] and [updatedAt] are
    present and hold a string or a [Date]; a number, [null] or a missing
    timestamp does not make an entity. *)
Theorem X8_entity_timestamps family E v n :
  assoc family entities = Some E →
  n ∈ ["createdAt"; "updatedAt"] →
  has_type E v = true →
  (∃ text, prop v n = Some (VStr text)) ∨ (∃ time, prop v n = Some (VDate time)).
Proof.
  intros HE Hn Hv.
  assert (∃ fields, E = TObject fields
          ∧ find_field E n = Some (req n timestamp)) as (fields & -> & Hfind).
  { each_entity HE family; each_listed Hn; by eexists. }
  apply has_type_object_inv in Hv as Hobj. destruct Hobj as [props ->].
  simpl. destruct (props !! n) as [x|] eqn:Hx.
  - destruct (has_type_property _ _ _ _ _ Hfind Hv Hx) as [[? _]|Hok];
      [done|].
    destruct x; try done; [left|right]; by eexists.
  - rewrite (has_type_lacks _ (VObj props) n) in Hv; [done| |].
    + each_entity HE family; each_listed Hn; listed.
    + unfold lacks. simpl. by rewrite Hx.
Qed.

Lemma X8_entity_timestamps_witness :
  (∃ text, prop bookmark_native "updatedAt" = Some (VStr text))
  ∨ (∃ time, prop bookmark_native "updatedAt" = Some (VDate time)).
Proof.
  apply (X8_entity_timestamps "bookmarks" Bookmark);
    [reflexivity|listed|vm_compute; reflexivity].
Defined.

(** X9: no input declares [createdAt] or [updatedAt]; [isArchived] is
    declared by the three [update] inputs only, as an optional boolean,
    and [isPinned] by [bookmarks.update] only, as an optional boolean. An
    object literal supplying one of the four to any other procedure is
    refused. *)
Theorem X9_flags_and_timestamps_of_inputs :
  (∀ family name p props n x,
     procedure_at family name = Some p →
     props !! n = Some x →
     n ∈ ["createdAt"; "updatedAt"]
     ∨ (n = "isArchived" ∧ name ≠ "update")
     ∨ (n = "isPinned" ∧ (family, name) ≠ ("bookmarks", "update")) →
     input_declares p n = false
     ∧ input_accepts p (VObj props) = false)
  ∧ (∀ family,
       family ∈ entity_families →
       ∃ p, procedure_at family "update" = Some p
            ∧ input_field p "isArchived" = Some (opt "isArchived" TBoolean))
  ∧ input_field bookmarks.update "isPinned" = Some (opt "isPinned" TBoolean).
Proof.
  split; [|split; [|reflexivity]].
  - intros family name p props n x Hp Hx Hn.
    assert (input_declares p n = false) as Hno.
    { each_procedure Hp;
        (destruct Hn as [Hn|[[-> Hne]|[-> Hne]]];
         [each_listed Hn; reflexivity|..]);
        first [reflexivity|by destruct Hne]. }
    split; [done|]. by eapply input_excess.
  - intros family Hf. each_listed Hf; by eexists.
Qed.

Lemma X9_flags_and_timestamps_of_inputs_witness :
  (input_declares spaces.create "isArchived" = false
   ∧ input_accepts spaces.create
       (VObj {[ "id" := VStr "s1"; "name" := VStr "Work"; "order" := VNum 0;
                "isArchived" := VBool true ]}) = false)
  ∧ ∃ p, procedure_at "groups" "update" = Some p
         ∧ input_field p "isArchived" = Some (opt "isArchived" TBoolean).
Proof.
  destruct X9_flags_and_timestamps_of_inputs as (Hall & Hupdate & _). split.
  - apply (Hall "spaces" "create" spaces.create _ "isArchived" (VBool true));
      [reflexivity|vm_compute; reflexivity|].
    right. left. split; [reflexivity|discriminate].
  - apply Hupdate. listed.
Defined.

(** X10: every mutation of an entity family other than [reorder] is
    addressed by an [id]: a value assignable to its input is an object
    whose [id] holds a string. *)
Theorem X10_mutations_carry_an_id family name p v :
  family ∈ entity_families →
  procedure_at family name = Some p →
  name ≠ "reorder" →
  input_has_type p v = true →
  ∃ id, prop v "id" = Some (VStr id).
Proof.
  intros Hf Hp Hname Hv.
  assert (∃ fields, input p = Some (TObject fields)
          ∧ find_field (TObject fields) "id" = Some (req "id" TString))
    as (fields & Hin & Hfind).
  { each_listed Hf; each_procedure Hp; try done; by eexists. }
  unfold input_has_type in Hv. rewrite Hin in Hv.
  apply has_type_object_inv in Hv as Hobj. destruct Hobj as [props ->].
  simpl. destruct (props !! "id") as [x|] eqn:Hx.
  - destruct (has_type_property _ _ _ _ _ Hfind Hv Hx) as [[? _]|Hok];
      [done|].
    by apply has_type_string_inv in Hok as [id ->]; exists id.
  - apply find_field_Some in Hfind as [Hfield _].
    apply (has_type_field _ _ _ Hfield) in Hv.
    unfold field_ok in Hv. simpl in Hv. by rewrite Hx in Hv.
Qed.

Lemma X10_mutations_carry_an_id_witness :
  ∃ id, prop bookmark_native "id" = Some (VStr id).
Proof.
  apply (X10_mutations_carry_an_id "bookmarks" "move" bookmarks.move);
    [listed|reflexivity|discriminate|vm_compute; reflexivity].
Defined.

(** X11: whatever [bookmarks.move] accepts, [bookmarks.update] accepts as
    well, and in each family whatever [delete] accepts [update] accepts:
    the update input declares every property of those inputs, with the
    same type. *)
Theorem X11_update_accepts_move_and_delete_inputs family name p u v :
  family ∈ entity_families →
  name ∈ ["delete"; "move"] →
  procedure_at family name = Some p →
  procedure_at family "update" = Some u →
  input_accepts p v = true →
  input_accepts u v = true.
Proof.
  intros Hf Hname Hp Hu.
  each_listed Hf; each_listed Hname; injection Hu as <-;
    try discriminate Hp; injection Hp as <-;
    unfold input_accepts; simpl input; intros Hacc;
    pose proof (accepts_has_type _ _ Hacc) as Hobj;
    apply has_type_object_inv in Hobj as [props ->];
    (apply andb_true_iff; split;
     [ rewrite <-(left_id_L ∅ (∪) props);
       (eapply (has_type_completed _ _ ∅); [reflexivity| |exact Hacc]);
       intros g Hin; each_listed Hin; vm_compute; first [done|by split]
     | apply andb_true_iff in Hacc as [_ Hexcess];
       (eapply no_excess_subshape; [|exact Hexcess]);
       intros n Hin; simpl in Hin; each_listed Hin; listed ]).
Qed.

Lemma X11_update_accepts_move_and_delete_inputs_witness :
  input_accepts bookmarks.update
    (obj [("id", VStr "b1"); ("groupId", VStr "g2"); ("spaceId", VStr "s2")])
  = true.
Proof.
  apply (X11_update_accepts_move_and_delete_inputs
           "bookmarks" "move" bookmarks.move);
    [listed|listed|reflexivity|reflexivity|vm_compute; reflexivity].
Defined.

(** X12: for the input of every procedure that has a required property,
    a property holding [undefined] counts as an omitted property: it
    satisfies an optional declaration and fails a required one. The input
    of [sync.ensureUser], which has no required property, is outside this
    rule: an object sharing no property with it is refused, and is
    assignable once it holds [email] as [undefined]. *)
Theorem X12_undefined_is_omitted :
  (∀ family name p props n,
     procedure_at family name = Some p →
     input_required p ≠ [] →
     input_has_type p (VObj (<[n:=VUndefined]> props))
     = input_has_type p (VObj (delete n props)))
  ∧ (∀ family name p,
       procedure_at family name = Some p →
       call p = mutate →
       input_required p = [] ↔ (family, name) = ("sync", "ensureUser"))
  ∧ (∀ n x, n ∉ ["email"; "name"; "avatarUrl"] →
       input_has_type sync.ensureUser (VObj {[ n := x ]}) = false
       ∧ input_has_type sync.ensureUser
           (VObj (<["email":=VUndefined]> {[ n := x ]})) = true).
Proof.
  split; [|split].
  - intros family name p props n Hp Hreq.
    each_procedure Hp; try (by destruct Hreq);
      by apply has_type_undefined_property.
  - intros family name p Hp Hcall. each_procedure Hp; done.
  - intros n x Hn.
    assert (n ≠ "email" ∧ n ≠ "name" ∧ n ≠ "avatarUrl") as (He & Hm & Ha).
    { repeat split; intros ->; apply Hn; listed. }
    unfold input_has_type, sync.ensureUser, Mutate, input. cbv beta iota.
    rewrite !has_type_object.
    unfold field_ok, nothing_in_common, has_property.
    cbn [forallb existsb fname optional ftype opt weak].
    rewrite !lookup_insert_eq.
    rewrite !lookup_insert_ne by done.
    rewrite !lookup_singleton_ne by done.
    rewrite bool_decide_eq_false_2 by apply map_non_empty_singleton.
    split; [done|]. simpl. by rewrite andb_false_r.
Qed.

Lemma X12_undefined_is_omitted_witness :
  input_has_type spaces.create
    (VObj (<["name":=VUndefined]>
             {[ "id" := VStr "s1"; "name" := VStr "Work"; "order" := VNum 0 ]}))
  = input_has_type spaces.create
      (VObj (delete "name"
               {[ "id" := VStr "s1"; "name" := VStr "Work"; "order" := VNum 0 ]})).
Proof.
  destruct X12_undefined_is_omitted as (H & _).
  apply (H "spaces" "create"); [reflexivity|discriminate].
Defined.
